(** * Archiver metadata of the pg_auto_failover monitor

    A shallow embedding of [src/monitor/archiver_metadata.c]: the three
    repository operations [GetArchiver], [AddArchiver], [RemoveArchiver]
    and the marshaler [AutoFailoverArchiverGetDatum], over an explicit
    model of the backend state they use (the SPI session stack, the SPI
    result globals and the archiver table with its sequence). *)

From Stdlib Require Import ZArith NArith List String Ascii Bool Lia.
From Stdlib Require Import Decimal DecimalString.
Import ListNotations.
Local Open Scope Z_scope.
Local Open Scope string_scope.

(** ** Machine integers and Datum *)

Module Machine.

(** The value of a [w]-bit two's complement integer holding [x]:
    the C conversion to a signed integer type of [w] bits. *)
Definition wrap_signed (w : Z) (x : Z) : Z :=
  (x + 2 ^ (w - 1)) mod 2 ^ w - 2 ^ (w - 1).

Definition int32 (x : Z) : Z := wrap_signed 32 x.
Definition int64 (x : Z) : Z := wrap_signed 64 x.

Definition in_int32 (x : Z) : Prop := - 2 ^ 31 <= x < 2 ^ 31.
Definition in_int64 (x : Z) : Prop := - 2 ^ 63 <= x < 2 ^ 63.

(** The bit pattern of a 64-bit machine word ([uintptr_t]). *)
Definition word64 (x : Z) : Z := x mod 2 ^ 64.

End Machine.
Import Machine.

(** SQL values as the executor sees them once a Datum is read at its
    declared type. *)
Inductive value : Type :=
| VInt (n : Z)
| VText (s : string)
| VNull.

(** A heap tuple: one value per attribute, in attribute order. *)
Definition HeapTuple : Type := list value.

(** A [Datum] is a 64-bit word; it is either an integer passed by value
    or the address of a varlena ([text]) or of a composite value.
    Addresses themselves are not modelled, only what they point to. *)
Inductive Datum : Type :=
| DWord (bits : Z)
| DText (s : string)
| DTuple (t : HeapTuple).

Definition datum_bits (d : Datum) : Z :=
  match d with
  | DWord b => b
  | _ => 0
  end.

(** [Int32GetDatum]: "Returns datum representation for a 32-bit integer".
    The argument is an [int32]; a wider argument is converted to [int32]
    first, then sign-extended into the word. *)
Definition Int32GetDatum (x : Z) : Datum := DWord (word64 (int32 x)).

(** [Int64GetDatum], used by the executor to hand out [int8] columns. *)
Definition Int64GetDatum (x : Z) : Datum := DWord (word64 (int64 x)).

(** [DatumGetInt32(X)] is [(int32) (X)]; [DatumGetInt64(X)] is [(int64) (X)]. *)
Definition DatumGetInt32 (d : Datum) : Z := int32 (datum_bits d).
Definition DatumGetInt64 (d : Datum) : Z := int64 (datum_bits d).

(** Type identifiers of [catalog/pg_type.h]. *)
Definition Oid : Type := Z.
Definition INT8OID : Oid := 20.
Definition INT4OID : Oid := 23.
Definition TEXTOID : Oid := 25.

Definition TupleDesc : Type := list Oid.

(** ** Errors and outcomes *)

Inductive errcode : Type :=
| ERRCODE_INTERNAL_ERROR
| ERRCODE_INVALID_PARAMETER_VALUE.

Record ErrorData : Type := mkError {
  sqlerrcode : errcode;
  message : string
}.

(** What running a piece of the C code ends in: a normal return, an
    [ERROR] raised through [elog]/[ereport] (a non-local exit: nothing
    after the raise runs), or a memory fault (a NULL or wild pointer is
    dereferenced: no error is raised, the backend process dies). *)
Inductive outcome (A : Type) : Type :=
| Return (a : A)
| Raise (e : ErrorData)
| Fault.
Arguments Return {A} a.
Arguments Raise {A} e.
Arguments Fault {A}.

Definition raises {A : Type} (o : outcome A) : bool :=
  match o with
  | Raise _ => true
  | _ => false
  end.

Definition returns {A : Type} (o : outcome A) : bool :=
  match o with
  | Return _ => true
  | _ => false
  end.

(** ** The persistent store *)

(** One row of the archiver table. *)
Record archiver_row : Type := mkRow {
  row_nodeid : Z;
  row_nodename : string;
  row_nodehost : string
}.

(** The store: the rows of the archiver table in physical order and the
    last value handed out by the sequence
    [pgautofailover.archiver_nodeid_seq] (0 before the first call). *)
Record database : Type := mkDatabase {
  archiver_table : list archiver_row;
  archiver_nodeid_seq : Z
}.

(** ** Query executor interface (SPI) *)

Record SPITupleTable : Type := mkTupleTable {
  tupdesc : TupleDesc;
  vals : list HeapTuple
}.

(** What one statement execution reports: the status code, the number of
    processed rows, the result set and the store after the statement. *)
Record SPIResult : Type := mkResult {
  res_status : Z;
  res_processed : N;
  res_tuptable : option SPITupleTable;
  res_db : database
}.

(** The executor behind [SPI_execute_with_args]: statement text, number of
    arguments, their types, values and null flags, the read-only flag and
    the row limit. *)
Definition Executor : Type :=
  string -> nat -> list Oid -> list Datum -> option (list ascii) ->
  bool -> Z -> database -> SPIResult.

(** Status codes of [executor/spi.h]. *)
Definition SPI_ERROR_OPUNKNOWN : Z := -3.
Definition SPI_ERROR_UNCONNECTED : Z := -4.
Definition SPI_ERROR_ARGUMENT : Z := -6.
Definition SPI_OK_CONNECT : Z := 1.
Definition SPI_OK_FINISH : Z := 2.
Definition SPI_OK_SELECT : Z := 5.
Definition SPI_OK_INSERT : Z := 7.
Definition SPI_OK_DELETE : Z := 8.
Definition SPI_OK_INSERT_RETURNING : Z := 11.

(** The backend state the repository code runs in: the number of SPI
    sessions currently open, the globals [SPI_processed] and
    [SPI_tuptable], and the store. *)
Record backend : Type := mkBackend {
  spi_sessions : nat;
  SPI_processed : N;
  SPI_tuptable : option SPITupleTable;
  db : database
}.

(** ** A state monad with errors that keeps the state at the raise *)

Definition M (A : Type) : Type := backend -> outcome A * backend.

Definition ret {A : Type} (a : A) : M A := fun st => (Return a, st).

Definition bind {A B : Type} (m : M A) (k : A -> M B) : M B :=
  fun st =>
    match m st with
    | (Return a, st') => k a st'
    | (Raise e, st') => (Raise e, st')
    | (Fault, st') => (Fault, st')
    end.

Declare Scope spi_scope.
Delimit Scope spi_scope with spi.
Notation "x <- c1 ;; c2" := (bind c1 (fun x => c2))
  (at level 61, c1 at next level, right associativity) : spi_scope.
Notation "c1 ;; c2" := (bind c1 (fun _ => c2))
  (at level 61, right associativity) : spi_scope.
Local Open Scope spi_scope.

(** [elog(ERROR, msg)]: no error code given, so the internal-error code. *)
Definition elog_ERROR {A : Type} (msg : string) : M A :=
  fun st => (Raise (mkError ERRCODE_INTERNAL_ERROR msg), st).

Definition fault {A : Type} : M A := fun st => (Fault, st).

Definition SPI_connect : M Z :=
  fun st =>
    (Return SPI_OK_CONNECT,
     mkBackend (S (spi_sessions st)) (SPI_processed st) (SPI_tuptable st) (db st)).

(** [SPI_finish] closes the innermost session and frees its memory: the
    result globals point into that memory and are reset. *)
Definition SPI_finish : M Z :=
  fun st =>
    match spi_sessions st with
    | O => (Return SPI_ERROR_UNCONNECTED, st)
    | S n => (Return SPI_OK_FINISH, mkBackend n 0%N None (db st))
    end.

Definition read_SPI_processed : M N := fun st => (Return (SPI_processed st), st).

(** [SPI_tuptable->tupdesc]: faults when [SPI_tuptable] is NULL. *)
Definition read_SPI_tupdesc : M TupleDesc :=
  fun st =>
    match SPI_tuptable st with
    | Some tbl => (Return (tupdesc tbl), st)
    | None => (Fault, st)
    end.

(** [SPI_tuptable->vals[i]]: faults when there is no such tuple. *)
Definition read_SPI_vals (i : nat) : M HeapTuple :=
  fun st =>
    match SPI_tuptable st with
    | Some tbl =>
        match nth_error (vals tbl) i with
        | Some t => (Return t, st)
        | None => (Fault, st)
        end
    | None => (Fault, st)
    end.

(** ** PostgreSQL helpers used by the source *)

(** A C string pointer: [None] is the NULL pointer. *)
Definition cstring : Type := option string.

(** [CStringGetTextDatum(s)] is [PointerGetDatum(cstring_to_text(s))];
    [cstring_to_text] takes [strlen(s)], which faults on NULL. *)
Definition CStringGetTextDatum (s : cstring) : M Datum :=
  match s with
  | Some str => ret (DText str)
  | None => fault
  end.

(** [TextDatumGetCString(d)] is [text_to_cstring] of the pointer held in
    [d]: it reads the varlena the Datum points to. *)
Definition TextDatumGetCString (d : Datum) : M string :=
  match d with
  | DText s => ret s
  | _ => fault
  end.

Definition value_datum (v : value) : Datum :=
  match v with
  | VInt n => Int64GetDatum n
  | VText s => DText s
  | VNull => DWord 0
  end.

(** [heap_getattr(tup, attnum, tupleDesc, isnull)]: the Datum of attribute
    [attnum] (counted from 1) and its null flag; an attribute the tuple
    does not have reads as null. *)
Definition heap_getattr (tup : HeapTuple) (attnum : nat) (tupleDesc : TupleDesc)
  : Datum * bool :=
  match nth_error tup (attnum - 1) with
  | Some VNull | None => (DWord 0, true)
  | Some v => (value_datum v, false)
  end.

(** [SPI_getbinval(row, rowdesc, colnumber, isnull)] is [heap_getattr] for
    the user columns of the row. *)
Definition SPI_getbinval (row : HeapTuple) (rowdesc : TupleDesc) (colnumber : nat)
  : Datum * bool :=
  heap_getattr row colnumber rowdesc.

(** How a Datum is read at a declared type: [int8] and [int4] read the
    word at their width, [text] follows the pointer. [None] stands for a
    Datum that is not a value of the type. *)
Definition datum_value (ty : Oid) (d : Datum) : option value :=
  if (ty =? INT8OID)%Z then Some (VInt (DatumGetInt64 d))
  else if (ty =? INT4OID)%Z then Some (VInt (DatumGetInt32 d))
  else if (ty =? TEXTOID)%Z then
    match d with
    | DText s => Some (VText s)
    | _ => None
    end
  else None.

(** [heap_form_tuple(tupleDescriptor, values, isnull)] builds one field
    per attribute of the descriptor, reading [values[i]] and [isnull[i]]
    for every attribute [i]; [None] when the arrays are shorter than the
    descriptor (a read past their end) or a Datum is not of the
    attribute's type. *)
Fixpoint heap_form_tuple (tupleDescriptor : TupleDesc) (values : list Datum)
  (isnull : list bool) : option HeapTuple :=
  match tupleDescriptor with
  | [] => Some []
  | ty :: tys =>
      match values, isnull with
      | d :: ds, b :: bs =>
          match (if b then Some VNull else datum_value ty d),
                heap_form_tuple tys ds bs with
          | Some v, Some t => Some (v :: t)
          | _, _ => None
          end
      | _, _ => None
      end
  end.

Definition HeapTupleGetDatum (t : HeapTuple) : Datum := DTuple t.

(** ** The archiver record and the constants of the missing headers *)

(** Modelled from the spec: the struct [AutoFailoverArchiver] is declared
    in [archiver_metadata.h], which is not among the sources. Spec, data
    model: [nodeId] is a 64-bit signed integer, [nodeName] and [nodeHost]
    are strings. The source reads the three fields and stores
    [DatumGetInt64(...)] into [nodeId]. *)
Record AutoFailoverArchiver : Type := mkArchiver {
  nodeId : Z;
  nodeName : string;
  nodeHost : string
}.

(** Modelled from the spec: the macro [AUTO_FAILOVER_ARCHIVER_TABLE] comes
    from [metadata.h], which is not among the sources. Spec, external
    interfaces: the archiver table with columns nodeid, nodename,
    nodehost; its qualified name is the one the sequence
    [pgautofailover.archiver_nodeid_seq] of the insert statement belongs to. *)
Definition AUTO_FAILOVER_ARCHIVER_TABLE : string := "pgautofailover.archiver".

(** Modelled from the spec: attribute numbers of [archiver_metadata.h],
    in the order of the persisted layout (nodeid, nodename, nodehost). *)
Definition Anum_pgautofailover_archiver_nodeid : nat := 1.
Definition Anum_pgautofailover_archiver_nodename : nat := 2.
Definition Anum_pgautofailover_archiver_nodehost : nat := 3.

(** The three statements of the source. *)
Definition selectQuery : string :=
  "SELECT * FROM " ++ AUTO_FAILOVER_ARCHIVER_TABLE ++
  " WHERE nodeId = $1".

Definition insertQuery : string :=
  "WITH seq(nodeid) AS " ++
  "(SELECT nextval('pgautofailover.archiver_nodeid_seq'::regclass)) " ++
  "INSERT INTO " ++ AUTO_FAILOVER_ARCHIVER_TABLE ++
  " (nodename, nodehost) " ++
  "SELECT " ++
  "case when $1 is null then format('archiver_%s', seq.nodeid) else $1 end" ++
  ", $2 " ++
  "FROM seq " ++
  "RETURNING nodeid".

Definition deleteQuery : string :=
  "DELETE FROM " ++ AUTO_FAILOVER_ARCHIVER_TABLE ++
  " WHERE nodeid = $1".

(** The errors the code raises. *)
Definition could_not_select : ErrorData :=
  mkError ERRCODE_INTERNAL_ERROR ("could not select from " ++ AUTO_FAILOVER_ARCHIVER_TABLE).
Definition could_not_insert : ErrorData :=
  mkError ERRCODE_INTERNAL_ERROR ("could not insert into " ++ AUTO_FAILOVER_ARCHIVER_TABLE).
Definition could_not_delete : ErrorData :=
  mkError ERRCODE_INTERNAL_ERROR ("could not delete from " ++ AUTO_FAILOVER_ARCHIVER_TABLE).

(** The spec's names for them. [RepositoryError] is any of the three
    [elog(ERROR, ...)] of the repository operations. *)
Definition RepositoryError (e : ErrorData) : Prop :=
  e = could_not_select \/ e = could_not_insert \/ e = could_not_delete.

Definition InvalidArgument : ErrorData :=
  mkError ERRCODE_INVALID_PARAMETER_VALUE "the given archiver must not be NULL".

Definition SchemaMismatch : ErrorData :=
  mkError ERRCODE_INTERNAL_ERROR "return type must be a row type".

(** ** The repository operations *)

Section Repository.

(** The query executor the operations run against. *)
Variable executor : Executor.

(** [SPI_execute_with_args]: refuses to run outside a session;
    otherwise runs the statement and publishes the result in the
    globals. *)
Definition SPI_execute_with_args (src : string) (nargs : nat)
  (argtypes : list Oid) (Values : list Datum) (Nulls : option (list ascii))
  (read_only : bool) (tcount : Z) : M Z :=
  fun st =>
    match spi_sessions st with
    | O => (Return SPI_ERROR_UNCONNECTED, st)
    | S _ =>
        let r := executor src nargs argtypes Values Nulls read_only tcount (db st) in
        (Return (res_status r),
         mkBackend (spi_sessions st) (res_processed r) (res_tuptable r) (res_db r))
    end.

(** [nodeId] is a C [int]. The record is allocated in the caller's memory
    context, so it outlives [SPI_finish]: it is returned by value here. *)
Definition GetArchiver (nodeId : Z) : M (option AutoFailoverArchiver) :=
  let argTypes := [INT8OID] in
  let argValues := [Int32GetDatum nodeId] in
  let argCount := List.length argValues in
  SPI_connect ;;
  spiStatus <- SPI_execute_with_args selectQuery argCount argTypes argValues
                 None false 1 ;;
  (if negb (spiStatus =? SPI_OK_SELECT)%Z
   then elog_ERROR ("could not select from " ++ AUTO_FAILOVER_ARCHIVER_TABLE)
   else ret tt) ;;
  processed <- read_SPI_processed ;;
  archiver <-
    (if (0 <? processed)%N then
       tupleDescriptor <- read_SPI_tupdesc ;;
       heapTuple <- read_SPI_vals 0 ;;
       let nodeId :=
         fst (heap_getattr heapTuple Anum_pgautofailover_archiver_nodeid
                tupleDescriptor) in
       let nodeName :=
         fst (heap_getattr heapTuple Anum_pgautofailover_archiver_nodename
                tupleDescriptor) in
       let nodeHost :=
         fst (heap_getattr heapTuple Anum_pgautofailover_archiver_nodehost
                tupleDescriptor) in
       name <- TextDatumGetCString nodeName ;;
       host <- TextDatumGetCString nodeHost ;;
       ret (Some (mkArchiver (DatumGetInt64 nodeId) name host))
     else ret None) ;;
  SPI_finish ;;
  ret archiver.

(** The result is a C [int]: [DatumGetInt32] of the returned column. *)
Definition AddArchiver (nodeName nodeHost : cstring) : M Z :=
  let argTypes := [TEXTOID; TEXTOID] in
  v1 <- match nodeName with
        | None => ret (DWord 0)
        | Some _ => CStringGetTextDatum nodeName
        end ;;
  v2 <- CStringGetTextDatum nodeHost ;;
  let argValues := [v1; v2] in
  let argNulls :=
    [match nodeName with None => "n"%char | Some _ => " "%char end;
     " "%char] in
  let argCount := List.length argValues in
  SPI_connect ;;
  spiStatus <- SPI_execute_with_args insertQuery argCount argTypes argValues
                 (Some argNulls) false 0 ;;
  processed <- read_SPI_processed ;;
  nodeId <-
    (if (spiStatus =? SPI_OK_INSERT_RETURNING)%Z && (0 <? processed)%N then
       row <- read_SPI_vals 0 ;;
       rowdesc <- read_SPI_tupdesc ;;
       let nodeIdDatum := fst (SPI_getbinval row rowdesc 1) in
       ret (DatumGetInt32 nodeIdDatum)
     else elog_ERROR ("could not insert into " ++ AUTO_FAILOVER_ARCHIVER_TABLE)) ;;
  SPI_finish ;;
  ret nodeId.

(** [archiver] is a pointer: [None] is NULL, and [archiver->nodeId]
    faults on it. *)
Definition RemoveArchiver (archiver : option AutoFailoverArchiver) : M unit :=
  let argTypes := [INT4OID] in
  v <- match archiver with
       | Some a => ret (Int32GetDatum (nodeId a))
       | None => fault
       end ;;
  let argValues := [v] in
  let argCount := List.length argValues in
  SPI_connect ;;
  spiStatus <- SPI_execute_with_args deleteQuery argCount argTypes argValues
                 None false 0 ;;
  (if negb (spiStatus =? SPI_OK_DELETE)%Z
   then elog_ERROR ("could not delete from " ++ AUTO_FAILOVER_ARCHIVER_TABLE)
   else ret tt) ;;
  SPI_finish ;;
  ret tt.

End Repository.

(** ** The response marshaler *)

Inductive TypeFuncClass : Type :=
| TYPEFUNC_SCALAR
| TYPEFUNC_COMPOSITE
| TYPEFUNC_COMPOSITE_DOMAIN
| TYPEFUNC_RECORD
| TYPEFUNC_OTHER.

(** Of the call information only the declared result type of the calling
    SQL function matters here: what [get_call_result_type] finds. A
    composite result type comes with its tuple descriptor. *)
Inductive FunctionCallInfo : Type :=
| ResultScalar (ty : Oid)
| ResultComposite (desc : TupleDesc)
| ResultCompositeDomain (desc : TupleDesc)
| ResultRecord
| ResultOther.

Definition get_call_result_type (fcinfo : FunctionCallInfo)
  : TypeFuncClass * option TupleDesc :=
  match fcinfo with
  | ResultScalar _ => (TYPEFUNC_SCALAR, None)
  | ResultComposite desc => (TYPEFUNC_COMPOSITE, Some desc)
  | ResultCompositeDomain desc => (TYPEFUNC_COMPOSITE_DOMAIN, Some desc)
  | ResultRecord => (TYPEFUNC_RECORD, None)
  | ResultOther => (TYPEFUNC_OTHER, None)
  end.

Definition is_TYPEFUNC_COMPOSITE (c : TypeFuncClass) : bool :=
  match c with
  | TYPEFUNC_COMPOSITE => true
  | _ => false
  end.

Definition ereport_ERROR {A : Type} (e : ErrorData) : M A :=
  fun st => (Raise e, st).

Definition AutoFailoverArchiverGetDatum (fcinfo : FunctionCallInfo)
  (archiver : option AutoFailoverArchiver) : M Datum :=
  match archiver with
  | None =>
      ereport_ERROR
        (mkError ERRCODE_INVALID_PARAMETER_VALUE "the given archiver must not be NULL")
  | Some a =>
      let isNulls := [false; false; false] in
      let v0 := Int32GetDatum (nodeId a) in
      v1 <- CStringGetTextDatum (Some (nodeName a)) ;;
      v2 <- CStringGetTextDatum (Some (nodeHost a)) ;;
      let values := [v0; v1; v2] in
      let '(resultTypeClass, resultDescriptor) := get_call_result_type fcinfo in
      (if negb (is_TYPEFUNC_COMPOSITE resultTypeClass)
       then ereport_ERROR (mkError ERRCODE_INTERNAL_ERROR "return type must be a row type")
       else ret tt) ;;
      match resultDescriptor with
      | None => fault
      | Some desc =>
          match heap_form_tuple desc values isNulls with
          | Some resultTuple => ret (HeapTupleGetDatum resultTuple)
          | None => fault
          end
      end
  end.

(** ** The PostgreSQL executor on the three statements *)

Module Pg.

(** [nextval] of the sequence: advance and hand out the new value. *)
Definition nextval (d : database) : Z * database :=
  let n := archiver_nodeid_seq d + 1 in
  (n, mkDatabase (archiver_table d) n).

(** Modelled from the spec: the definition of the archiver table is not
    among the sources. Spec, external interfaces: the column nodeid is
    a "unique integer, sequence-backed"; data model: it is "assigned by
    the store's identifier sequence at creation time". So a row
    inserted without a nodeid takes the column default, one [nextval]
    of [pgautofailover.archiver_nodeid_seq] (the name PostgreSQL gives
    the sequence of a serial column nodeid of table archiver). *)
Definition nodeid_default (d : database) : Z * database := nextval d.

(** [format('archiver_%s', n)]. *)
Definition format_archiver (n : Z) : string :=
  "archiver_" ++ NilZero.string_of_int (Z.to_int n).

Definition archiver_tupdesc : TupleDesc := [INT8OID; TEXTOID; TEXTOID].

Definition row_tuple (r : archiver_row) : HeapTuple :=
  [VInt (row_nodeid r); VText (row_nodename r); VText (row_nodehost r)].

Definition failure (code : Z) (d : database) : SPIResult :=
  mkResult code 0%N None d.

Definition arg_is_null (Nulls : option (list ascii)) (i : nat) : bool :=
  match Nulls with
  | None => false
  | Some l =>
      match nth_error l i with
      | Some c => Ascii.eqb c "n"%char
      | None => false
      end
  end.

(** The values of the parameters $1 .. $nargs, each read at its
    declared type. *)
Fixpoint bind_params (nargs i : nat) (argtypes : list Oid)
  (Values : list Datum) (Nulls : option (list ascii)) : option (list value) :=
  match nargs with
  | O => Some []
  | S n =>
      match nth_error argtypes i, nth_error Values i with
      | Some ty, Some d =>
          match (if arg_is_null Nulls i then Some VNull else datum_value ty d),
                bind_params n (S i) argtypes Values Nulls with
          | Some v, Some vs => Some (v :: vs)
          | _, _ => None
          end
      | _, _ => None
      end
  end.

Definition nodeid_is (k : Z) (r : archiver_row) : bool := (row_nodeid r =? k)%Z.

(** SELECT * FROM archiver WHERE nodeId = $1, at most [tcount] rows
    when [tcount] is positive. *)
Definition exec_select (params : list value) (tcount : Z) (d : database)
  : SPIResult :=
  match params with
  | [VInt k] =>
      let found := filter (nodeid_is k) (archiver_table d) in
      let rows := if (0 <? tcount)%Z then firstn (Z.to_nat tcount) found else found in
      mkResult SPI_OK_SELECT (N.of_nat (List.length rows))
        (Some (mkTupleTable archiver_tupdesc (map row_tuple rows))) d
  | [VNull] =>
      mkResult SPI_OK_SELECT 0%N (Some (mkTupleTable archiver_tupdesc [])) d
  | _ => failure SPI_ERROR_ARGUMENT d
  end.

(** The insert statement, clause by clause, over a table whose nodeid
    column has the default [column_default]:
    - WITH seq(nodeid) AS (SELECT nextval(...)): one [nextval];
    - SELECT case when $1 is null then format('archiver_%s', seq.nodeid)
      else $1 end, $2 FROM seq: the name and the host of the new row;
    - INSERT INTO archiver (nodename, nodehost): only these two columns
      are given, so nodeid takes its column default;
    - RETURNING nodeid: the nodeid of the inserted row.
    The default is computed when the row is formed from the output of
    the scan of seq, hence after the [nextval] of the WITH clause. *)
Definition exec_insert_with (column_default : database -> Z * database)
  (params : list value) (d : database) : SPIResult :=
  match params with
  | [p1; VText host] =>
      let '(seq_nodeid, d1) := nextval d in
      let name :=
        match p1 with
        | VNull => Some (format_archiver seq_nodeid)
        | VText s => Some s
        | VInt _ => None
        end in
      match name with
      | Some nodename =>
          let '(nodeid, d2) := column_default d1 in
          let row := mkRow nodeid nodename host in
          mkResult SPI_OK_INSERT_RETURNING 1%N
            (Some (mkTupleTable [INT8OID] [[VInt nodeid]]))
            (mkDatabase (archiver_table d2 ++ [row]) (archiver_nodeid_seq d2))
      | None => failure SPI_ERROR_ARGUMENT d
      end
  | _ => failure SPI_ERROR_ARGUMENT d
  end.

Definition exec_insert : list value -> database -> SPIResult :=
  exec_insert_with nodeid_default.

(** DELETE FROM archiver WHERE nodeid = $1: no result set. *)
Definition exec_delete (params : list value) (d : database) : SPIResult :=
  match params with
  | [VInt k] =>
      let deleted := filter (nodeid_is k) (archiver_table d) in
      let kept := filter (fun r => negb (nodeid_is k r)) (archiver_table d) in
      mkResult SPI_OK_DELETE (N.of_nat (List.length deleted)) None
        (mkDatabase kept (archiver_nodeid_seq d))
  | [VNull] => mkResult SPI_OK_DELETE 0%N None d
  | _ => failure SPI_ERROR_ARGUMENT d
  end.

Definition executor : Executor :=
  fun src nargs argtypes Values Nulls read_only tcount d =>
    match bind_params nargs 0 argtypes Values Nulls with
    | None => failure SPI_ERROR_ARGUMENT d
    | Some params =>
        if String.eqb src selectQuery then exec_select params tcount d
        else if String.eqb src insertQuery then exec_insert params d
        else if String.eqb src deleteQuery then exec_delete params d
        else failure SPI_ERROR_OPUNKNOWN d
    end.

(** A store as the sequence backs it: every nodeid of the table has
    been handed out by the sequence already. *)
Definition sequence_backed (d : database) : Prop :=
  forall r, In r (archiver_table d) -> row_nodeid r <= archiver_nodeid_seq d.

End Pg.

(** An executor whose statements cannot execute (the store is
    unreachable): every call reports a failure status and touches
    nothing. *)
Definition unreachable_executor : Executor :=
  fun _ _ _ _ _ _ _ d => mkResult SPI_ERROR_OPUNKNOWN 0%N None d.

(** An idle backend over a store. *)
Definition idle (d : database) : backend := mkBackend 0 0%N None d.

Definition empty_database : database := mkDatabase [] 0.

(** ** What the executor is asked by each operation *)

Definition select_result (ex : Executor) (n : Z) (st : backend) : SPIResult :=
  ex selectQuery 1%nat [INT8OID] [Int32GetDatum n] None false 1 (db st).

Definition insert_result (ex : Executor) (nodeName : cstring) (host : string)
  (st : backend) : SPIResult :=
  ex insertQuery 2%nat [TEXTOID; TEXTOID]
    [match nodeName with None => DWord 0 | Some s => DText s end; DText host]
    (Some [match nodeName with None => "n"%char | Some _ => " "%char end; " "%char])
    false 0 (db st).

Definition delete_result (ex : Executor) (a : AutoFailoverArchiver) (st : backend)
  : SPIResult :=
  ex deleteQuery 1%nat [INT4OID] [Int32GetDatum (nodeId a)] None false 0 (db st).

(** The name the insert statement stores. *)
Definition stored_name (nodeName : cstring) (d : database) : string :=
  match nodeName with
  | Some s => s
  | None => Pg.format_archiver (archiver_nodeid_seq d + 1)
  end.

(** An executor that reports [p] processed rows whatever [ex] reports,
    and is [ex] otherwise. *)
Definition override_processed (p : N) (ex : Executor) : Executor :=
  fun src nargs argtypes Values Nulls read_only tcount d =>
    let r := ex src nargs argtypes Values Nulls read_only tcount d in
    mkResult (res_status r) p (res_tuptable r) (res_db r).

(** Session accounting of one run from [st]: a normal return leaves as
    many sessions open as before, a raise leaves the session of the
    operation open. *)
Definition session_balance {A : Type} (st : backend) (r : outcome A * backend)
  : Prop :=
  match fst r with
  | Return _ => spi_sessions (snd r) = spi_sessions st
  | Raise _ => spi_sessions (snd r) = S (spi_sessions st)
  | Fault => True
  end.

(** The record [GetArchiver] builds from a row. *)
Definition archiver_of_row (r : archiver_row) : AutoFailoverArchiver :=
  mkArchiver (row_nodeid r) (row_nodename r) (row_nodehost r).

(** A store in good order: the sequence backs every nodeid, and no two
    rows carry the same nodeid. *)
Definition store_ok (d : database) : Prop :=
  Pg.sequence_backed d /\ NoDup (map row_nodeid (archiver_table d)).

(** An executor whose insert reports one row whose nodeid is NULL, as a
    table without a default on nodeid would; it stores nothing. *)
Definition null_returning_executor : Executor :=
  fun _ _ _ _ _ _ _ d =>
    mkResult SPI_OK_INSERT_RETURNING 1%N
      (Some (mkTupleTable [INT8OID] [[VNull]])) d.

(** An executor whose select reports no processed row and yet hands out
    a result set with a row. *)
Definition uncounted_row_executor : Executor :=
  fun _ _ _ _ _ _ _ d =>
    mkResult SPI_OK_SELECT 0%N
      (Some (mkTupleTable Pg.archiver_tupdesc
               [[VInt 7; VText "archiver_7"; VText "10.0.0.5:5432"]])) d.

Ltac unfold_spi :=
  unfold GetArchiver, AddArchiver, RemoveArchiver, AutoFailoverArchiverGetDatum,
    CStringGetTextDatum, TextDatumGetCString,
    SPI_connect, SPI_finish, SPI_execute_with_args,
    read_SPI_processed, read_SPI_tupdesc, read_SPI_vals,
    bind, ret, fault, elog_ERROR, ereport_ERROR;
  cbn [spi_sessions SPI_processed SPI_tuptable db fst snd List.length].

Ltac split_innermost :=
  match goal with
  | |- context [match ?x with _ => _ end] =>
      lazymatch x with
      | context [match _ with _ => _ end] => fail
      | _ => destruct x eqn:?
      end
  end.

Ltac destruct_result :=
  match goal with
  | |- context [?ex ?a ?b ?c ?d ?e ?f ?g (db ?st)] =>
      destruct (ex a b c d e f g (db st)) as [s p t d']
  end;
  cbn [res_status res_processed res_tuptable res_db] in *.

Ltac split_match :=
  cbn [negb andb];
  repeat (split_innermost;
          cbn [fst snd spi_sessions SPI_processed SPI_tuptable db tupdesc vals
               negb andb nth_error]).

(** * Properties *)

(** ** Machine integer facts *)

Lemma int32_small (x : Z) : in_int32 x -> int32 x = x.
Proof.
  unfold in_int32, int32, wrap_signed. intros H.
  change (2 ^ (32 - 1)) with 2147483648.
  change (2 ^ 32) with 4294967296.
  change (2 ^ 31) with 2147483648 in H.
  rewrite Z.mod_small by lia. lia.
Qed.

Lemma int32_range (x : Z) : in_int32 (int32 x).
Proof.
  unfold in_int32, int32, wrap_signed.
  change (2 ^ (32 - 1)) with 2147483648.
  change (2 ^ 32) with 4294967296.
  change (2 ^ 31) with 2147483648.
  pose proof (Z.mod_pos_bound (x + 2147483648) 4294967296). lia.
Qed.

Lemma int64_word64 (x : Z) : in_int64 x -> int64 (word64 x) = x.
Proof.
  unfold in_int64, int64, word64, wrap_signed. intros H.
  change (2 ^ (64 - 1)) with 9223372036854775808.
  change (2 ^ 64) with 18446744073709551616.
  change (2 ^ 63) with 9223372036854775808 in H.
  rewrite Zplus_mod_idemp_l.
  rewrite Z.mod_small by lia. lia.
Qed.

Lemma int32_word64 (x : Z) : int32 (word64 x) = int32 x.
Proof.
  unfold int32, word64, wrap_signed.
  change (2 ^ (32 - 1)) with 2147483648.
  change (2 ^ 32) with 4294967296.
  change (2 ^ 64) with (4294967296 * 4294967296).
  rewrite (Z.mod_eq x (4294967296 * 4294967296)) by lia.
  replace (x - 4294967296 * 4294967296 * (x / (4294967296 * 4294967296)) + 2147483648)
    with (x + 2147483648 + (- (4294967296 * (x / (4294967296 * 4294967296)))) * 4294967296)
    by ring.
  rewrite Z_mod_plus_full. reflexivity.
Qed.

Lemma in_int32_int64 (x : Z) : in_int32 x -> in_int64 x.
Proof.
  unfold in_int32, in_int64.
  change (2 ^ 31) with 2147483648.
  change (2 ^ 63) with 9223372036854775808. lia.
Qed.

Lemma DatumGetInt64_Int32GetDatum (x : Z) :
  DatumGetInt64 (Int32GetDatum x) = int32 x.
Proof.
  unfold DatumGetInt64, Int32GetDatum, datum_bits.
  apply int64_word64, in_int32_int64, int32_range.
Qed.

Lemma DatumGetInt32_Int32GetDatum (x : Z) :
  DatumGetInt32 (Int32GetDatum x) = int32 x.
Proof.
  unfold DatumGetInt32, Int32GetDatum, datum_bits.
  rewrite int32_word64. apply int32_small, int32_range.
Qed.

Lemma DatumGetInt64_Int64GetDatum (x : Z) :
  in_int64 x -> DatumGetInt64 (Int64GetDatum x) = x.
Proof.
  intros H. unfold DatumGetInt64, Int64GetDatum, datum_bits.
  assert (E : int64 x = x).
  { unfold in_int64 in H. unfold int64, wrap_signed.
    change (2 ^ (64 - 1)) with 9223372036854775808.
    change (2 ^ 64) with 18446744073709551616.
    change (2 ^ 63) with 9223372036854775808 in H.
    rewrite Z.mod_small by lia. lia. }
  rewrite E. apply int64_word64, H.
Qed.

Lemma DatumGetInt32_Int64GetDatum (x : Z) :
  in_int64 x -> DatumGetInt32 (Int64GetDatum x) = int32 x.
Proof.
  intros H. unfold DatumGetInt32, Int64GetDatum, datum_bits.
  rewrite int32_word64.
  f_equal.
  unfold in_int64 in H. unfold int64, wrap_signed.
  change (2 ^ (64 - 1)) with 9223372036854775808.
  change (2 ^ 64) with 18446744073709551616.
  change (2 ^ 63) with 9223372036854775808 in H.
  rewrite Z.mod_small by lia. lia.
Qed.

(** ** The operations against any executor *)

Section AnyExecutor.

Variable ex : Executor.

Lemma GetArchiver_select_failed (n : Z) (st : backend) :
  res_status (select_result ex n st) <> SPI_OK_SELECT ->
  fst (GetArchiver ex n st) = Raise could_not_select.
Proof.
  intros H. unfold_spi. fold (select_result ex n st).
  apply Z.eqb_neq in H. rewrite H. reflexivity.
Qed.

Lemma GetArchiver_select_ok (n : Z) (st : backend) :
  res_status (select_result ex n st) = SPI_OK_SELECT ->
  raises (fst (GetArchiver ex n st)) = false.
Proof.
  intros H. unfold_spi. fold (select_result ex n st).
  apply Z.eqb_eq in H. rewrite H. cbn [negb].
  destruct (select_result ex n st) as [s p t d]. cbn.
  split_match; reflexivity.
Qed.

Lemma GetArchiver_no_row (n : Z) (st : backend) :
  res_status (select_result ex n st) = SPI_OK_SELECT ->
  res_processed (select_result ex n st) = 0%N ->
  GetArchiver ex n st =
    (Return None,
     mkBackend (spi_sessions st) 0%N None (res_db (select_result ex n st))).
Proof.
  intros H H0. unfold_spi. fold (select_result ex n st).
  apply Z.eqb_eq in H. rewrite H. cbn [negb].
  rewrite H0. reflexivity.
Qed.

Lemma GetArchiver_sessions (n : Z) (st : backend) :
  session_balance st (GetArchiver ex n st).
Proof.
  unfold session_balance. unfold_spi. fold (select_result ex n st).
  destruct (select_result ex n st) as [s p t d]. cbn.
  split_match; cbn; reflexivity.
Qed.

Lemma AddArchiver_insert_failed (nodeName : cstring) (host : string) (st : backend) :
  ~ (res_status (insert_result ex nodeName host st) = SPI_OK_INSERT_RETURNING /\
     (0 < res_processed (insert_result ex nodeName host st))%N) ->
  fst (AddArchiver ex nodeName (Some host) st) = Raise could_not_insert.
Proof.
  intros H. unfold_spi. unfold insert_result in H.
  destruct nodeName as [name|]; destruct_result;
    (destruct (s =? SPI_OK_INSERT_RETURNING)%Z eqn:Es;
     [destruct (0 <? p)%N eqn:Ep;
      [exfalso; apply H; split;
       [apply Z.eqb_eq, Es | apply N.ltb_lt, Ep] | reflexivity]
     | reflexivity]).
Qed.

Lemma AddArchiver_insert_ok (nodeName : cstring) (host : string) (st : backend) :
  res_status (insert_result ex nodeName host st) = SPI_OK_INSERT_RETURNING ->
  (0 < res_processed (insert_result ex nodeName host st))%N ->
  raises (fst (AddArchiver ex nodeName (Some host) st)) = false.
Proof.
  intros Hs Hp. unfold_spi. unfold insert_result in Hs, Hp.
  destruct nodeName as [name|]; destruct_result;
    apply Z.eqb_eq in Hs; apply N.ltb_lt in Hp; rewrite Hs, Hp;
    split_match; reflexivity.
Qed.

Lemma AddArchiver_sessions (nodeName nodeHost : cstring) (st : backend) :
  session_balance st (AddArchiver ex nodeName nodeHost st).
Proof.
  unfold session_balance. unfold_spi.
  destruct nodeHost as [host|]; [|destruct nodeName; exact I].
  destruct nodeName as [name|]; destruct_result;
    split_match; reflexivity.
Qed.

Lemma RemoveArchiver_delete_failed (a : AutoFailoverArchiver) (st : backend) :
  res_status (delete_result ex a st) <> SPI_OK_DELETE ->
  fst (RemoveArchiver ex (Some a) st) = Raise could_not_delete.
Proof.
  intros H. unfold_spi. fold (delete_result ex a st).
  apply Z.eqb_neq in H. rewrite H. reflexivity.
Qed.

Lemma RemoveArchiver_delete_ok (a : AutoFailoverArchiver) (st : backend) :
  res_status (delete_result ex a st) = SPI_OK_DELETE ->
  RemoveArchiver ex (Some a) st =
    (Return tt, mkBackend (spi_sessions st) 0%N None (res_db (delete_result ex a st))).
Proof.
  intros H. unfold_spi. fold (delete_result ex a st).
  apply Z.eqb_eq in H. rewrite H. reflexivity.
Qed.

Lemma RemoveArchiver_sessions (archiver : option AutoFailoverArchiver)
  (st : backend) :
  session_balance st (RemoveArchiver ex archiver st).
Proof.
  unfold session_balance. unfold_spi.
  destruct archiver as [a|]; [|exact I].
  fold (delete_result ex a st).
  destruct (delete_result ex a st) as [s p t d]. cbn.
  split_match; cbn; reflexivity.
Qed.

End AnyExecutor.

(** ** The operations against the PostgreSQL executor *)

Section OnPostgres.

Import Pg.

Lemma executor_select (n tcount : Z) (d : database) :
  executor selectQuery 1%nat [INT8OID] [Int32GetDatum n] None false tcount d =
  exec_select [VInt (int32 n)] tcount d.
Proof.
  unfold executor. cbn [bind_params nth_error arg_is_null].
  unfold datum_value. cbn [Z.eqb INT8OID Pos.eqb].
  rewrite DatumGetInt64_Int32GetDatum, String.eqb_refl. reflexivity.
Qed.

Lemma executor_insert (nodeName : cstring) (host : string) (d : database) :
  executor insertQuery 2%nat [TEXTOID; TEXTOID]
    [match nodeName with None => DWord 0 | Some s => DText s end; DText host]
    (Some [match nodeName with None => "n"%char | Some _ => " "%char end; " "%char])
    false 0 d =
  exec_insert
    [match nodeName with None => VNull | Some s => VText s end; VText host] d.
Proof.
  unfold executor.
  replace (String.eqb insertQuery selectQuery) with false by reflexivity.
  rewrite String.eqb_refl.
  destruct nodeName; reflexivity.
Qed.

Lemma executor_delete (k : Z) (d : database) :
  executor deleteQuery 1%nat [INT4OID] [Int32GetDatum k] None false 0 d =
  exec_delete [VInt (int32 k)] d.
Proof.
  unfold executor. cbn [bind_params nth_error arg_is_null].
  unfold datum_value. cbn [Z.eqb INT4OID INT8OID Pos.eqb].
  rewrite DatumGetInt32_Int32GetDatum.
  replace (String.eqb deleteQuery selectQuery) with false by reflexivity.
  replace (String.eqb deleteQuery insertQuery) with false by reflexivity.
  rewrite String.eqb_refl. reflexivity.
Qed.

Lemma filter_none (k : Z) (rows : list archiver_row) :
  (forall r, In r rows -> row_nodeid r <> k) ->
  filter (nodeid_is k) rows = [].
Proof.
  induction rows as [|r rows IH]; intros H; [reflexivity|].
  cbn [filter]. unfold nodeid_is at 1.
  destruct (Z.eqb_spec (row_nodeid r) k) as [E|_].
  - exfalso. apply (H r); [left; reflexivity | exact E].
  - apply IH. intros r' Hr'. apply H. right. exact Hr'.
Qed.

Lemma filter_keeps_all (k : Z) (rows : list archiver_row) :
  (forall r, In r rows -> row_nodeid r <> k) ->
  filter (fun r => negb (nodeid_is k r)) rows = rows.
Proof.
  induction rows as [|r rows IH]; intros H; [reflexivity|].
  cbn [filter]. unfold nodeid_is at 1.
  destruct (Z.eqb_spec (row_nodeid r) k) as [E|_].
  - exfalso. apply (H r); [left; reflexivity | exact E].
  - cbn [negb]. f_equal. apply IH. intros r' Hr'. apply H. right. exact Hr'.
Qed.

(** A lookup of an identifier no row carries finds nothing, and is not
    an error. *)
Lemma GetArchiver_absent (n : Z) (st : backend) :
  in_int32 n ->
  (forall r, In r (archiver_table (db st)) -> row_nodeid r <> n) ->
  GetArchiver executor n st =
    (Return None, mkBackend (spi_sessions st) 0%N None (db st)).
Proof.
  intros Hn Hrows.
  assert (E : select_result executor n st =
              mkResult SPI_OK_SELECT 0%N
                (Some (mkTupleTable archiver_tupdesc [])) (db st)).
  { unfold select_result. rewrite executor_select, (int32_small n Hn).
    unfold exec_select. rewrite (filter_none n _ Hrows). reflexivity. }
  rewrite GetArchiver_no_row; rewrite E; reflexivity.
Qed.

(** A delete that matches no row leaves the store as it was. *)
Lemma RemoveArchiver_absent (a : AutoFailoverArchiver) (st : backend) :
  (forall r, In r (archiver_table (db st)) -> row_nodeid r <> int32 (nodeId a)) ->
  RemoveArchiver executor (Some a) st =
    (Return tt, mkBackend (spi_sessions st) 0%N None (db st)).
Proof.
  intros Hrows.
  assert (E : delete_result executor a st =
              mkResult SPI_OK_DELETE 0%N None (db st)).
  { unfold delete_result. rewrite executor_delete.
    unfold exec_delete.
    rewrite (filter_none _ _ Hrows), (filter_keeps_all _ _ Hrows).
    destruct (db st); reflexivity. }
  rewrite RemoveArchiver_delete_ok; rewrite E; reflexivity.
Qed.

(** Whatever default the nodeid column has, the statement names the row
    after the value of its WITH clause: the row's nodeid is the default's
    value, which the statement never compares with or copies from
    seq.nodeid. *)
Lemma exec_insert_with_row (column_default : database -> Z * database)
  (host : string) (d : database) :
  let d1 := snd (nextval d) in
  archiver_table (res_db (exec_insert_with column_default [VNull; VText host] d)) =
    (archiver_table (snd (column_default d1)) ++
     [mkRow (fst (column_default d1))
        (format_archiver (archiver_nodeid_seq d + 1)) host])%list /\
  res_tuptable (exec_insert_with column_default [VNull; VText host] d) =
    Some (mkTupleTable [INT8OID] [[VInt (fst (column_default d1))]]).
Proof.
  unfold exec_insert_with, nextval. cbn [snd].
  destruct (column_default _) as [nodeid d2]. cbn. split; reflexivity.
Qed.

(** What one [AddArchiver] does to the store: the WITH clause draws
    [seq + 1], the row takes [seq + 2] as its nodeid, and the caller
    gets that nodeid as a C [int]. *)
Lemma AddArchiver_run (nodeName : cstring) (host : string) (st : backend) :
  in_int64 (archiver_nodeid_seq (db st) + 2) ->
  AddArchiver executor nodeName (Some host) st =
    (Return (int32 (archiver_nodeid_seq (db st) + 2)),
     mkBackend (spi_sessions st) 0%N None
       (mkDatabase
          (archiver_table (db st) ++
           [mkRow (archiver_nodeid_seq (db st) + 2)
              (stored_name nodeName (db st)) host])
          (archiver_nodeid_seq (db st) + 2))).
Proof.
  intros Hseq.
  pose proof (executor_insert nodeName host (db st)) as E.
  unfold_spi.
  destruct nodeName as [name|]; rewrite E;
    unfold exec_insert, exec_insert_with, nodeid_default, nextval;
    cbn [archiver_nodeid_seq archiver_table res_status res_processed
         res_tuptable res_db];
    replace (archiver_nodeid_seq (db st) + 1 + 1)
      with (archiver_nodeid_seq (db st) + 2) by ring;
    cbn [Z.eqb SPI_OK_INSERT_RETURNING Pos.eqb N.ltb N.compare andb
         SPI_tuptable vals tupdesc nth_error fst snd];
    unfold SPI_getbinval, heap_getattr;
    cbn [Nat.sub nth_error value_datum fst];
    rewrite (DatumGetInt32_Int64GetDatum _ Hseq); reflexivity.
Qed.

Lemma filter_new_row (rows : list archiver_row) (r : archiver_row) :
  (forall r', In r' rows -> row_nodeid r' < row_nodeid r) ->
  filter (nodeid_is (row_nodeid r)) (rows ++ [r]) = [r].
Proof.
  intros H. rewrite filter_app.
  rewrite filter_none.
  - cbn [filter app]. unfold nodeid_is. rewrite Z.eqb_refl. reflexivity.
  - intros r' Hr'. specialize (H r' Hr'). lia.
Qed.

(** A lookup of the identifier of the row inserted last, in a store the
    sequence backs, returns that row. *)
Lemma GetArchiver_new_row (rows : list archiver_row) (r : archiver_row)
  (seq : Z) (sessions : nat) (p : N) (t : option SPITupleTable) :
  in_int32 (row_nodeid r) ->
  (forall r', In r' rows -> row_nodeid r' < row_nodeid r) ->
  GetArchiver executor (row_nodeid r)
    (mkBackend sessions p t (mkDatabase (rows ++ [r]) seq)) =
    (Return (Some (mkArchiver (row_nodeid r) (row_nodename r) (row_nodehost r))),
     mkBackend sessions 0%N None (mkDatabase (rows ++ [r]) seq)).
Proof.
  intros Hid Hrows.
  unfold_spi.
  rewrite executor_select, (int32_small _ Hid).
  unfold exec_select.
  cbn [archiver_table].
  rewrite (filter_new_row rows r Hrows).
  cbv - [DatumGetInt64 Int64GetDatum Datatypes.app row_nodeid row_nodename row_nodehost].
  rewrite (DatumGetInt64_Int64GetDatum _ (in_int32_int64 _ Hid)).
  reflexivity.
Qed.

(** Add then Get, for identifiers that fit a C [int]: the record found
    carries the supplied host, the identifier returned, and the stored
    name: the supplied one, or the one formatted from the value the
    WITH clause drew, which is one less than the identifier. *)
Lemma AddArchiver_then_GetArchiver (nodeName : cstring) (host : string)
  (st : backend) :
  sequence_backed (db st) ->
  in_int32 (archiver_nodeid_seq (db st) + 2) ->
  let id := archiver_nodeid_seq (db st) + 2 in
  fst (AddArchiver executor nodeName (Some host) st) = Return id /\
  fst (GetArchiver executor id (snd (AddArchiver executor nodeName (Some host) st))) =
    Return (Some (mkArchiver id (stored_name nodeName (db st)) host)).
Proof.
  intros Hback Hid id.
  rewrite (AddArchiver_run nodeName host st (in_int32_int64 _ Hid)).
  cbn [fst snd]. rewrite (int32_small _ Hid). split; [reflexivity|].
  fold id.
  set (r := mkRow id (stored_name nodeName (db st)) host).
  change id with (row_nodeid r) at 1.
  rewrite GetArchiver_new_row.
  - reflexivity.
  - exact Hid.
  - intros r' Hr'. specialize (Hback r' Hr'). cbn [row_nodeid r]. subst id. lia.
Qed.

End OnPostgres.

(** ** The marshaler *)

Lemma GetDatum_null_archiver (fcinfo : FunctionCallInfo) (st : backend) :
  AutoFailoverArchiverGetDatum fcinfo None st = (Raise InvalidArgument, st).
Proof. reflexivity. Qed.

Lemma GetDatum_not_composite (fcinfo : FunctionCallInfo)
  (a : AutoFailoverArchiver) (st : backend) :
  fst (get_call_result_type fcinfo) <> TYPEFUNC_COMPOSITE ->
  AutoFailoverArchiverGetDatum fcinfo (Some a) st = (Raise SchemaMismatch, st).
Proof.
  intros H. destruct fcinfo; cbn in H; try reflexivity.
  exfalso. apply H. reflexivity.
Qed.

Lemma GetDatum_compatible (a : AutoFailoverArchiver) (ty : Oid) (st : backend) :
  ty = INT4OID \/ ty = INT8OID ->
  AutoFailoverArchiverGetDatum (ResultComposite [ty; TEXTOID; TEXTOID]) (Some a) st =
    (Return (DTuple [VInt (int32 (nodeId a)); VText (nodeName a); VText (nodeHost a)]),
     st).
Proof.
  intros [-> | ->]; unfold_spi;
    cbn [get_call_result_type is_TYPEFUNC_COMPOSITE negb heap_form_tuple];
    unfold datum_value; cbn [Z.eqb INT4OID INT8OID TEXTOID Pos.eqb].
  - rewrite DatumGetInt32_Int32GetDatum. reflexivity.
  - rewrite DatumGetInt64_Int32GetDatum. reflexivity.
Qed.


(** * The claims *)

(** C1 (defect of the insert statement). With nodeName absent, the name
    is formatted from the value drawn by the WITH clause, but the row's
    nodeid is not taken from that clause: the column list of the insert
    leaves nodeid out, so the row takes one more value of the sequence.
    On an empty store, Add with nodeHost 10.0.0.5:5432 returns 2 and the
    row stored is (2, archiver_1, 10.0.0.5:5432): the stored name is not
    archiver_ followed by the nodeId this insert gave the row. *)
Theorem C1_generated_name_misses_allocated_nodeId :
  AddArchiver Pg.executor None (Some "10.0.0.5:5432") (idle empty_database) =
    (Return 2,
     idle (mkDatabase [mkRow 2 "archiver_1" "10.0.0.5:5432"] 2)) /\
  "archiver_1" <> Pg.format_archiver 2.
Proof.
  split.
  - vm_compute. reflexivity.
  - vm_compute. discriminate.
Qed.

(** C2 (same defect as C1). On an empty store, Add with nodeName absent
    and nodeHost 10.0.0.5:5432 returns 2, and Get of 2 then yields a
    present record with that host whose nodeName is archiver_1, not
    archiver_2. *)
Theorem C2_add_then_get_generated_name :
  fst (AddArchiver Pg.executor None (Some "10.0.0.5:5432") (idle empty_database)) =
    Return 2 /\
  fst (GetArchiver Pg.executor 2
         (snd (AddArchiver Pg.executor None (Some "10.0.0.5:5432")
                 (idle empty_database)))) =
    Return (Some (mkArchiver 2 "archiver_1" "10.0.0.5:5432")).
Proof.
  split; vm_compute; reflexivity.
Qed.

(** C3. For every nodeId (a C int) that no row of the store carries,
    Get returns the absent value, raises nothing and leaves the store as
    it was; and against any executor, Get raises exactly when the select
    statement does not report SPI_OK_SELECT, the error being the
    repository's "could not select" error. *)
Theorem C3_GetArchiver_absent_is_not_an_error :
  (forall (n : Z) (st : backend),
      in_int32 n ->
      (forall r, In r (archiver_table (db st)) -> row_nodeid r <> n) ->
      GetArchiver Pg.executor n st =
        (Return None, mkBackend (spi_sessions st) 0%N None (db st))) /\
  (forall (ex : Executor) (n : Z) (st : backend) (e : ErrorData),
      fst (GetArchiver ex n st) = Raise e <->
      (e = could_not_select /\ RepositoryError e /\
       res_status (select_result ex n st) <> SPI_OK_SELECT)).
Proof.
  split.
  - exact GetArchiver_absent.
  - intros ex n st e. split.
    + intros H.
      destruct (Z.eq_dec (res_status (select_result ex n st)) SPI_OK_SELECT)
        as [Hok|Hko].
      * pose proof (GetArchiver_select_ok ex n st Hok) as Hr.
        rewrite H in Hr. discriminate.
      * rewrite (GetArchiver_select_failed ex n st Hko) in H.
        injection H as <-. repeat split; [left; reflexivity | exact Hko].
    + intros (-> & _ & Hko). apply GetArchiver_select_failed, Hko.
Qed.

Lemma C3_witness :
  GetArchiver Pg.executor 7
    (idle (mkDatabase [mkRow 3 "archiver_3" "10.0.0.5:5432"] 3)) =
    (Return None, idle (mkDatabase [mkRow 3 "archiver_3" "10.0.0.5:5432"] 3)) /\
  fst (GetArchiver unreachable_executor 7 (idle empty_database)) =
    Raise could_not_select.
Proof.
  split.
  - apply (proj1 C3_GetArchiver_absent_is_not_an_error 7
             (idle (mkDatabase [mkRow 3 "archiver_3" "10.0.0.5:5432"] 3))).
    + unfold in_int32. simpl. lia.
    + intros r [<- | []]. simpl. discriminate.
  - apply (proj2 C3_GetArchiver_absent_is_not_an_error unreachable_executor 7
             (idle empty_database) could_not_select).
    repeat split.
    + left. reflexivity.
    + vm_compute. discriminate.
Defined.

(** C4. For every archiver record, when the delete matches no row,
    Remove returns without raising and leaves the store unchanged;
    against any executor, Remove returns when the delete reports
    SPI_OK_DELETE and raises the repository's "could not delete" error
    otherwise; and the number of affected rows has no influence on the
    outcome nor on the store. *)
Theorem C4_RemoveArchiver_zero_rows_is_silent :
  (forall (a : AutoFailoverArchiver) (st : backend),
      (forall r, In r (archiver_table (db st)) ->
                 row_nodeid r <> DatumGetInt32 (Int32GetDatum (nodeId a))) ->
      RemoveArchiver Pg.executor (Some a) st =
        (Return tt, mkBackend (spi_sessions st) 0%N None (db st))) /\
  (forall (ex : Executor) (a : AutoFailoverArchiver) (st : backend),
      (res_status (delete_result ex a st) = SPI_OK_DELETE ->
       fst (RemoveArchiver ex (Some a) st) = Return tt) /\
      (res_status (delete_result ex a st) <> SPI_OK_DELETE ->
       fst (RemoveArchiver ex (Some a) st) = Raise could_not_delete /\
       RepositoryError could_not_delete)) /\
  (forall (ex : Executor) (p : N) (a : AutoFailoverArchiver) (st : backend),
      fst (RemoveArchiver (override_processed p ex) (Some a) st) =
        fst (RemoveArchiver ex (Some a) st) /\
      db (snd (RemoveArchiver (override_processed p ex) (Some a) st)) =
        db (snd (RemoveArchiver ex (Some a) st))).
Proof.
  split; [|split].
  - intros a st H. apply RemoveArchiver_absent.
    rewrite DatumGetInt32_Int32GetDatum in H. exact H.
  - intros ex a st. split.
    + intros H. rewrite (RemoveArchiver_delete_ok ex a st H). reflexivity.
    + intros H. split.
      * apply RemoveArchiver_delete_failed, H.
      * right. right. reflexivity.
  - intros ex count a st.
    unfold_spi. unfold override_processed. destruct_result.
    split_match; split; reflexivity.
Qed.

Lemma C4_witness :
  RemoveArchiver Pg.executor (Some (mkArchiver 7 "archiver_7" "10.0.0.5:5432"))
    (idle (mkDatabase [mkRow 3 "archiver_3" "10.0.0.5:5432"] 3)) =
    (Return tt, idle (mkDatabase [mkRow 3 "archiver_3" "10.0.0.5:5432"] 3)) /\
  fst (RemoveArchiver unreachable_executor
         (Some (mkArchiver 7 "archiver_7" "10.0.0.5:5432")) (idle empty_database)) =
    Raise could_not_delete.
Proof.
  split.
  - apply (proj1 C4_RemoveArchiver_zero_rows_is_silent
             (mkArchiver 7 "archiver_7" "10.0.0.5:5432")
             (idle (mkDatabase [mkRow 3 "archiver_3" "10.0.0.5:5432"] 3))).
    intros r [<- | []]. vm_compute. discriminate.
  - apply (proj2 (proj1 (proj2 C4_RemoveArchiver_zero_rows_is_silent)
                    unreachable_executor
                    (mkArchiver 7 "archiver_7" "10.0.0.5:5432")
                    (idle empty_database))).
    vm_compute. discriminate.
Defined.

(** C5 (amended). For every present nodeHost and against any executor,
    Add raises exactly when the insert does not report
    SPI_OK_INSERT_RETURNING with at least one processed row, the error
    being the repository's "could not insert" error, and then returns no
    value; Add itself does not check nodeHost. Against the PostgreSQL
    executor, for identifiers that fit a C int, Add returns the nodeid
    of the row it inserted. *)
Theorem C5_AddArchiver_raises_on_insert_report :
  (forall (ex : Executor) (nodeName : cstring) (host : string) (st : backend)
          (e : ErrorData),
      fst (AddArchiver ex nodeName (Some host) st) = Raise e <->
      (e = could_not_insert /\ RepositoryError e /\
       ~ (res_status (insert_result ex nodeName host st) = SPI_OK_INSERT_RETURNING /\
          (0 < res_processed (insert_result ex nodeName host st))%N))) /\
  (forall (nodeName : cstring) (host : string) (st : backend),
      in_int32 (archiver_nodeid_seq (db st) + 2) ->
      fst (AddArchiver Pg.executor nodeName (Some host) st) =
        Return (archiver_nodeid_seq (db st) + 2) /\
      In (mkRow (archiver_nodeid_seq (db st) + 2) (stored_name nodeName (db st)) host)
         (archiver_table
            (db (snd (AddArchiver Pg.executor nodeName (Some host) st))))).
Proof.
  split.
  - intros ex nodeName host st e. split.
    + intros H.
      destruct (Z.eq_dec (res_status (insert_result ex nodeName host st))
                  SPI_OK_INSERT_RETURNING) as [Hs|Hs].
      * destruct (N.ltb_spec 0 (res_processed (insert_result ex nodeName host st)))
          as [Hp|Hp].
        -- pose proof (AddArchiver_insert_ok ex nodeName host st Hs Hp) as Hr.
           rewrite H in Hr. discriminate.
        -- assert (Hno : ~ (res_status (insert_result ex nodeName host st) =
                              SPI_OK_INSERT_RETURNING /\
                            (0 < res_processed (insert_result ex nodeName host st))%N))
             by (intros [_ Hlt]; lia).
           rewrite (AddArchiver_insert_failed ex nodeName host st Hno) in H.
           injection H as <-.
           repeat split; [right; left; reflexivity | exact Hno].
      * assert (Hno : ~ (res_status (insert_result ex nodeName host st) =
                           SPI_OK_INSERT_RETURNING /\
                         (0 < res_processed (insert_result ex nodeName host st))%N))
          by (intros [Heq _]; contradiction).
        rewrite (AddArchiver_insert_failed ex nodeName host st Hno) in H.
        injection H as <-.
        repeat split; [right; left; reflexivity | exact Hno].
    + intros (-> & _ & Hno). apply AddArchiver_insert_failed, Hno.
  - intros nodeName host st Hid.
    rewrite (AddArchiver_run nodeName host st (in_int32_int64 _ Hid)).
    cbn [fst snd db archiver_table]. rewrite (int32_small _ Hid).
    split; [reflexivity|].
    apply in_or_app. right. left. reflexivity.
Qed.

Lemma C5_witness :
  fst (AddArchiver unreachable_executor (Some "archiver_a") (Some "10.0.0.5:5432")
         (idle empty_database)) = Raise could_not_insert /\
  fst (AddArchiver Pg.executor (Some "archiver_a") (Some "10.0.0.5:5432")
         (idle empty_database)) = Return 2.
Proof.
  split.
  - apply (proj2 (proj1 C5_AddArchiver_raises_on_insert_report unreachable_executor
                    (Some "archiver_a") "10.0.0.5:5432" (idle empty_database)
                    could_not_insert)).
    repeat split.
    + right. left. reflexivity.
    + vm_compute. intros [H _]. discriminate H.
  - apply (proj2 C5_AddArchiver_raises_on_insert_report
             (Some "archiver_a") "10.0.0.5:5432" (idle empty_database)).
    unfold in_int32. simpl. lia.
Defined.

(** C5, as stated, fails: with nodeHost absent no RepositoryError is
    raised. The NULL pointer is handed to [CStringGetTextDatum] unchecked,
    before any session is opened or statement executed. *)
Lemma C5_absent_nodeHost_raises_nothing :
  AddArchiver Pg.executor (Some "archiver_a") None (idle empty_database) =
    (Fault, idle empty_database) /\
  raises (fst (AddArchiver Pg.executor (Some "archiver_a") None
                 (idle empty_database))) = false.
Proof.
  split; reflexivity.
Qed.

(** C6. For every call with an absent archiver, whatever the expected
    shape, the marshaler raises InvalidArgument and produces no tuple;
    for every call with a present archiver whose expected shape is not a
    composite type, it raises SchemaMismatch. *)
Theorem C6_marshaler_rejects_null_and_non_row_shapes :
  (forall (fcinfo : FunctionCallInfo) (st : backend),
      AutoFailoverArchiverGetDatum fcinfo None st = (Raise InvalidArgument, st)) /\
  (forall (fcinfo : FunctionCallInfo) (a : AutoFailoverArchiver) (st : backend),
      fst (get_call_result_type fcinfo) <> TYPEFUNC_COMPOSITE ->
      AutoFailoverArchiverGetDatum fcinfo (Some a) st = (Raise SchemaMismatch, st)).
Proof.
  split.
  - exact GetDatum_null_archiver.
  - exact GetDatum_not_composite.
Qed.

Lemma C6_witness :
  AutoFailoverArchiverGetDatum (ResultScalar INT8OID)
    (Some (mkArchiver 7 "archiver_7" "10.0.0.5:5432")) (idle empty_database) =
    (Raise SchemaMismatch, idle empty_database).
Proof.
  apply (proj2 C6_marshaler_rejects_null_and_non_row_shapes).
  simpl. discriminate.
Defined.

(** C7 (amended). For every present archiver and every composite
    expected shape whose descriptor is (int4 or int8, text, text), the
    marshaler produces a tuple of exactly three fields, none of them
    null, in the order nodeId, nodeName, nodeHost; the first field is the
    record's nodeId whenever that fits 32 bits. *)
Theorem C7_marshaler_tuple_for_compatible_shape :
  forall (a : AutoFailoverArchiver) (ty : Oid) (st : backend),
    ty = INT4OID \/ ty = INT8OID ->
    exists n : Z,
      AutoFailoverArchiverGetDatum (ResultComposite [ty; TEXTOID; TEXTOID])
        (Some a) st =
        (Return (DTuple [VInt n; VText (nodeName a); VText (nodeHost a)]), st) /\
      (in_int32 (nodeId a) -> n = nodeId a).
Proof.
  intros a ty st Hty. exists (int32 (nodeId a)). split.
  - apply GetDatum_compatible, Hty.
  - apply int32_small.
Qed.

Lemma C7_witness :
  exists n : Z,
    AutoFailoverArchiverGetDatum (ResultComposite [INT8OID; TEXTOID; TEXTOID])
      (Some (mkArchiver 7 "archiver_7" "10.0.0.5:5432")) (idle empty_database) =
      (Return (DTuple [VInt n; VText "archiver_7"; VText "10.0.0.5:5432"]),
       idle empty_database) /\
    (in_int32 7 -> n = 7).
Proof.
  apply (C7_marshaler_tuple_for_compatible_shape
           (mkArchiver 7 "archiver_7" "10.0.0.5:5432") INT8OID (idle empty_database)).
  right. reflexivity.
Defined.

(** C7, as stated, fails: the shape (int8, text) is a composite type,
    and for it the marshaler returns a tuple of two fields. The number
    of fields is that of the descriptor; only the type class is checked. *)
Lemma C7_two_attribute_shape_gives_two_fields :
  AutoFailoverArchiverGetDatum (ResultComposite [INT8OID; TEXTOID])
    (Some (mkArchiver 7 "archiver_7" "10.0.0.5:5432")) (idle empty_database) =
    (Return (DTuple [VInt 7; VText "archiver_7"]), idle empty_database).
Proof.
  vm_compute. reflexivity.
Qed.

(** C8 (defect: identifiers pass through 32-bit conversions). With the
    sequence at 4294967301, Add stores a row with nodeid 4294967303 and
    returns 7; Remove of the record with nodeId 4294967303 deletes the
    row with nodeid 7 and keeps the row with nodeid 4294967303. *)
Theorem C8_nodeId_is_cut_to_32_bits :
  AddArchiver Pg.executor (Some "b") (Some "10.0.0.6:5432")
    (idle (mkDatabase [mkRow 7 "archiver_7" "10.0.0.5:5432"] 4294967301)) =
    (Return 7,
     idle (mkDatabase [mkRow 7 "archiver_7" "10.0.0.5:5432";
                       mkRow 4294967303 "b" "10.0.0.6:5432"] 4294967303)) /\
  RemoveArchiver Pg.executor (Some (mkArchiver 4294967303 "b" "10.0.0.6:5432"))
    (idle (mkDatabase [mkRow 7 "archiver_7" "10.0.0.5:5432";
                       mkRow 4294967303 "b" "10.0.0.6:5432"] 4294967303)) =
    (Return tt,
     idle (mkDatabase [mkRow 4294967303 "b" "10.0.0.6:5432"] 4294967303)).
Proof.
  split; vm_compute; reflexivity.
Qed.

(** C9 (amended). Against any executor, each of Get, Add and Remove
    leaves as many sessions open as it found when it returns normally;
    when it raises, the session it opened is still open: the code has no
    release on its error paths. *)
Theorem C9_session_released_on_return_only :
  forall (ex : Executor) (st : backend),
    (forall n : Z, session_balance st (GetArchiver ex n st)) /\
    (forall nodeName nodeHost : cstring,
        session_balance st (AddArchiver ex nodeName nodeHost st)) /\
    (forall archiver : option AutoFailoverArchiver,
        session_balance st (RemoveArchiver ex archiver st)).
Proof.
  intros ex st. split; [|split].
  - intros n. apply GetArchiver_sessions.
  - intros nodeName nodeHost. apply AddArchiver_sessions.
  - intros archiver. apply RemoveArchiver_sessions.
Qed.

(** C9, as stated, fails: when the statement cannot execute, each of the
    three operations raises with its session still open. *)
Lemma C9_session_held_after_raise :
  GetArchiver unreachable_executor 7 (idle empty_database) =
    (Raise could_not_select, mkBackend 1 0%N None empty_database) /\
  AddArchiver unreachable_executor None (Some "10.0.0.5:5432") (idle empty_database) =
    (Raise could_not_insert, mkBackend 1 0%N None empty_database) /\
  RemoveArchiver unreachable_executor
    (Some (mkArchiver 7 "archiver_7" "10.0.0.5:5432")) (idle empty_database) =
    (Raise could_not_delete, mkBackend 1 0%N None empty_database).
Proof.
  repeat split; vm_compute; reflexivity.
Qed.

(** C10. The null check comes first: for every call with an absent
    archiver and an expected shape that is not a composite type, the
    error raised is InvalidArgument, and it is not SchemaMismatch. *)
Theorem C10_null_check_precedes_shape_check :
  forall (fcinfo : FunctionCallInfo) (st : backend),
    fst (get_call_result_type fcinfo) <> TYPEFUNC_COMPOSITE ->
    fst (AutoFailoverArchiverGetDatum fcinfo None st) = Raise InvalidArgument /\
    fst (AutoFailoverArchiverGetDatum fcinfo None st) <> Raise SchemaMismatch.
Proof.
  intros fcinfo st _. rewrite GetDatum_null_archiver. cbn [fst].
  split; [reflexivity | discriminate].
Qed.

Lemma C10_witness :
  fst (AutoFailoverArchiverGetDatum (ResultScalar INT8OID) None (idle empty_database)) =
    Raise InvalidArgument /\
  fst (AutoFailoverArchiverGetDatum (ResultScalar INT8OID) None (idle empty_database)) <>
    Raise SchemaMismatch.
Proof.
  apply (C10_null_check_precedes_shape_check (ResultScalar INT8OID)
           (idle empty_database)).
  simpl. discriminate.
Defined.

(** * Further properties of the operations *)

(** ** Lists of rows *)

Lemma firstn_1_filter {A : Type} (f : A -> bool) (l : list A) :
  firstn 1 (filter f l) =
  match find f l with
  | Some x => [x]
  | None => []
  end.
Proof.
  induction l as [|x l IH]; [reflexivity|].
  cbn [filter find]. destruct (f x); [reflexivity | exact IH].
Qed.



Lemma find_app_rejected {A : Type} (f : A -> bool) (l : list A) (x : A) :
  f x = false -> find f (l ++ [x]) = find f l.
Proof.
  intros H. induction l as [|y l IH].
  - cbn. rewrite H. reflexivity.
  - simpl. destruct (f y); [reflexivity | exact IH].
Qed.

Lemma filter_twice {A : Type} (g : A -> bool) (l : list A) :
  filter g (filter g l) = filter g l.
Proof.
  induction l as [|x l IH]; [reflexivity|].
  cbn [filter]. destruct (g x) eqn:E; [|exact IH].
  cbn [filter]. rewrite E. f_equal. exact IH.
Qed.

Lemma NoDup_map_filter {A B : Type} (f : A -> B) (g : A -> bool) (l : list A) :
  NoDup (map f l) -> NoDup (map f (filter g l)).
Proof.
  induction l as [|x l IH]; intros H; [exact H|].
  cbn [map] in H. inversion H as [|? ? Hnotin Hrest]; subst.
  cbn [filter]. destruct (g x); [|exact (IH Hrest)].
  cbn [map]. constructor; [|exact (IH Hrest)].
  intros Hin. apply Hnotin.
  apply in_map_iff in Hin. destruct Hin as (y & Hy & Hin).
  apply filter_In in Hin. apply in_map_iff. exists y. tauto.
Qed.

(** ** The operations against PostgreSQL, in closed form *)

(** Get returns the first row carrying the nodeid, if any. *)
Lemma GetArchiver_find (n : Z) (st : backend) :
  GetArchiver Pg.executor n st =
    (Return (option_map archiver_of_row
               (find (Pg.nodeid_is (int32 n)) (archiver_table (db st)))),
     mkBackend (spi_sessions st) 0%N None (db st)).
Proof.
  unfold_spi. rewrite executor_select. unfold Pg.exec_select. cbv zeta.
  change (0 <? 1)%Z with true. change (Z.to_nat 1) with 1%nat. cbv iota.
  rewrite firstn_1_filter.
  destruct (find (Pg.nodeid_is (int32 n)) (archiver_table (db st))) as [r|] eqn:E.
  - apply find_some in E. destruct E as [_ E].
    unfold Pg.nodeid_is in E. apply Z.eqb_eq in E.
    assert (H64 : in_int64 (row_nodeid r))
      by (rewrite E; apply in_int32_int64, int32_range).
    cbv - [DatumGetInt64 Int64GetDatum row_nodeid row_nodename row_nodehost
           spi_sessions db].
    rewrite (DatumGetInt64_Int64GetDatum _ H64). reflexivity.
  - reflexivity.
Qed.

(** Remove deletes every row carrying the nodeid, cut to a C int, keeps
    the others in order, and leaves the sequence alone. *)
Lemma RemoveArchiver_run (a : AutoFailoverArchiver) (st : backend) :
  RemoveArchiver Pg.executor (Some a) st =
    (Return tt,
     mkBackend (spi_sessions st) 0%N None
       (mkDatabase
          (filter (fun r => negb (Pg.nodeid_is (int32 (nodeId a)) r))
             (archiver_table (db st)))
          (archiver_nodeid_seq (db st)))).
Proof.
  rewrite RemoveArchiver_delete_ok;
    unfold delete_result; rewrite executor_delete; reflexivity.
Qed.

(** What Add leaves in the store, whatever the size of the identifier. *)
Lemma AddArchiver_store (nodeName : cstring) (host : string) (st : backend) :
  snd (AddArchiver Pg.executor nodeName (Some host) st) =
    mkBackend (spi_sessions st) 0%N None
      (mkDatabase
         (archiver_table (db st) ++
          [mkRow (archiver_nodeid_seq (db st) + 2)
             (stored_name nodeName (db st)) host])
         (archiver_nodeid_seq (db st) + 2)).
Proof.
  pose proof (executor_insert nodeName host (db st)) as E.
  unfold_spi.
  destruct nodeName as [name|]; rewrite E;
    unfold Pg.exec_insert, Pg.exec_insert_with, Pg.nodeid_default, Pg.nextval;
    cbn [archiver_nodeid_seq archiver_table res_status res_processed
         res_tuptable res_db];
    replace (archiver_nodeid_seq (db st) + 1 + 1)
      with (archiver_nodeid_seq (db st) + 2) by ring;
    reflexivity.
Qed.





(** ** Properties *)

(** X1. Add then Get with a supplied name, on a store the sequence backs
    and for identifiers that fit a C int: Get of the identifier Add
    returned yields the record with that identifier, the supplied name
    and the supplied host. *)
Theorem Add_then_Get_returns_the_supplied_record :
  forall (name host : string) (st : backend),
    Pg.sequence_backed (db st) ->
    in_int32 (archiver_nodeid_seq (db st) + 2) ->
    exists id : Z,
      fst (AddArchiver Pg.executor (Some name) (Some host) st) = Return id /\
      fst (GetArchiver Pg.executor id
             (snd (AddArchiver Pg.executor (Some name) (Some host) st))) =
        Return (Some (mkArchiver id name host)).
Proof.
  intros name host st Hback Hid.
  exists (archiver_nodeid_seq (db st) + 2).
  exact (AddArchiver_then_GetArchiver (Some name) host st Hback Hid).
Qed.

Lemma Add_then_Get_returns_the_supplied_record_witness :
  exists id : Z,
    fst (AddArchiver Pg.executor (Some "backup1") (Some "10.0.0.5:5432")
           (idle (mkDatabase [mkRow 3 "archiver_3" "10.0.0.4:5432"] 3))) =
      Return id /\
    fst (GetArchiver Pg.executor id
           (snd (AddArchiver Pg.executor (Some "backup1") (Some "10.0.0.5:5432")
                   (idle (mkDatabase [mkRow 3 "archiver_3" "10.0.0.4:5432"] 3))))) =
      Return (Some (mkArchiver id "backup1" "10.0.0.5:5432")).
Proof.
  apply (Add_then_Get_returns_the_supplied_record "backup1" "10.0.0.5:5432"
           (idle (mkDatabase [mkRow 3 "archiver_3" "10.0.0.4:5432"] 3))).
  - intros r [<- | []]. simpl. lia.
  - unfold in_int32. simpl. lia.
Defined.

(** X2. Against PostgreSQL, Get never raises and never changes the store:
    for every nodeId it returns the first row of the table whose nodeid
    is the nodeId (as a C int), as a record with the row's three fields,
    or the absent value when there is none, and it closes its session. *)
Theorem Get_returns_first_matching_row :
  forall (n : Z) (st : backend),
    GetArchiver Pg.executor n st =
      (Return (option_map archiver_of_row
                 (find (Pg.nodeid_is (int32 n)) (archiver_table (db st)))),
       mkBackend (spi_sessions st) 0%N None (db st)).
Proof.
  exact GetArchiver_find.
Qed.




(** X5. Remove is idempotent: a second Remove of the same record returns
    normally and leaves the backend exactly as the first left it. *)
Theorem Remove_twice_is_Remove_once :
  forall (a : AutoFailoverArchiver) (st : backend),
    RemoveArchiver Pg.executor (Some a)
      (snd (RemoveArchiver Pg.executor (Some a) st)) =
    (Return tt, snd (RemoveArchiver Pg.executor (Some a) st)).
Proof.
  intros a st. rewrite !RemoveArchiver_run.
  cbn [fst snd db archiver_table archiver_nodeid_seq spi_sessions].
  rewrite filter_twice. reflexivity.
Qed.

(** X6. Add does not change what Get returns for any identifier other
    than the one it gave the new row: the rows already stored stay, in
    their order, before the new one. *)
Theorem Add_keeps_other_archivers :
  forall (nodeName : cstring) (host : string) (n : Z) (st : backend),
    int32 n <> archiver_nodeid_seq (db st) + 2 ->
    fst (GetArchiver Pg.executor n
           (snd (AddArchiver Pg.executor nodeName (Some host) st))) =
    fst (GetArchiver Pg.executor n st).
Proof.
  intros nodeName host n st Hn. rewrite AddArchiver_store, !GetArchiver_find.
  cbn [fst snd db archiver_table].
  rewrite find_app_rejected; [reflexivity|].
  unfold Pg.nodeid_is. cbn [row_nodeid]. apply Z.eqb_neq.
  intros E. apply Hn. symmetry. exact E.
Qed.

Lemma Add_keeps_other_archivers_witness :
  fst (GetArchiver Pg.executor 3
         (snd (AddArchiver Pg.executor None (Some "10.0.0.5:5432")
                 (idle (mkDatabase [mkRow 3 "archiver_3" "10.0.0.4:5432"] 3))))) =
  fst (GetArchiver Pg.executor 3
         (idle (mkDatabase [mkRow 3 "archiver_3" "10.0.0.4:5432"] 3))).
Proof.
  apply (Add_keeps_other_archivers None "10.0.0.5:5432" 3
           (idle (mkDatabase [mkRow 3 "archiver_3" "10.0.0.4:5432"] 3))).
  vm_compute. discriminate.
Defined.

(** X7. Add and Remove keep the store in good order: if the sequence
    backs every nodeid and no two rows share a nodeid, the same holds
    after an Add and after a Remove. *)
Theorem Add_and_Remove_keep_the_store_in_order :
  forall st : backend,
    store_ok (db st) ->
    (forall (nodeName : cstring) (host : string),
        store_ok (db (snd (AddArchiver Pg.executor nodeName (Some host) st)))) /\
    (forall a : AutoFailoverArchiver,
        store_ok (db (snd (RemoveArchiver Pg.executor (Some a) st)))).
Proof.
  intros st [Hback Hdup]. split.
  - intros nodeName host. rewrite AddArchiver_store. cbn [db]. split.
    + intros r Hr. cbn [archiver_table archiver_nodeid_seq] in *.
      apply in_app_or in Hr. destruct Hr as [Hr | [<- | []]].
      * specialize (Hback r Hr). lia.
      * cbn [row_nodeid]. lia.
    + cbn [archiver_table]. rewrite map_app. cbn [map row_nodeid].
      apply NoDup_app; [exact Hdup | repeat constructor; intros [] |].
      intros k Hk [<- | []].
      apply in_map_iff in Hk. destruct Hk as (r & Hr & Hin).
      specialize (Hback r Hin). lia.
  - intros a. rewrite RemoveArchiver_run. cbn [snd db]. split.
    + intros r Hr. cbn [archiver_table archiver_nodeid_seq] in *.
      apply filter_In in Hr. apply Hback, Hr.
    + cbn [archiver_table]. apply NoDup_map_filter, Hdup.
Qed.

Lemma Add_and_Remove_keep_the_store_in_order_witness :
  store_ok
    (db (snd (AddArchiver Pg.executor None (Some "10.0.0.5:5432")
                (idle (mkDatabase [mkRow 3 "archiver_3" "10.0.0.4:5432"] 3))))).
Proof.
  refine (proj1 (Add_and_Remove_keep_the_store_in_order
                   (idle (mkDatabase [mkRow 3 "archiver_3" "10.0.0.4:5432"] 3)) _)
            None "10.0.0.5:5432").
  split.
  - intros r [<- | []]. simpl. lia.
  - simpl. repeat constructor. intros [].
Defined.

(** X8. Two Adds in a row return two different identifiers, the second
    greater than the first, as long as they fit a C int. *)
Theorem consecutive_Adds_return_increasing_nodeIds :
  forall (name1 name2 : cstring) (host1 host2 : string) (st : backend),
    in_int32 (archiver_nodeid_seq (db st) + 2) ->
    in_int32 (archiver_nodeid_seq (db st) + 4) ->
    exists id1 id2 : Z,
      fst (AddArchiver Pg.executor name1 (Some host1) st) = Return id1 /\
      fst (AddArchiver Pg.executor name2 (Some host2)
             (snd (AddArchiver Pg.executor name1 (Some host1) st))) = Return id2 /\
      id1 < id2.
Proof.
  intros name1 name2 host1 host2 st H2 H4.
  exists (archiver_nodeid_seq (db st) + 2), (archiver_nodeid_seq (db st) + 4).
  split; [|split; [|lia]].
  - rewrite (AddArchiver_run name1 host1 st (in_int32_int64 _ H2)).
    cbn [fst]. rewrite (int32_small _ H2). reflexivity.
  - rewrite AddArchiver_store.
    rewrite AddArchiver_run; cbn [db archiver_nodeid_seq];
      replace (archiver_nodeid_seq (db st) + 2 + 2)
        with (archiver_nodeid_seq (db st) + 4) by ring.
    + cbn [fst]. rewrite (int32_small _ H4). reflexivity.
    + apply in_int32_int64, H4.
Qed.

Lemma consecutive_Adds_return_increasing_nodeIds_witness :
  exists id1 id2 : Z,
    fst (AddArchiver Pg.executor None (Some "10.0.0.5:5432")
           (idle empty_database)) = Return id1 /\
    fst (AddArchiver Pg.executor (Some "backup1") (Some "10.0.0.6:5432")
           (snd (AddArchiver Pg.executor None (Some "10.0.0.5:5432")
                   (idle empty_database)))) = Return id2 /\
    id1 < id2.
Proof.
  apply (consecutive_Adds_return_increasing_nodeIds None (Some "backup1")
           "10.0.0.5:5432" "10.0.0.6:5432" (idle empty_database)).
  - unfold in_int32. simpl. lia.
  - unfold in_int32. simpl. lia.
Defined.




(** X11. Get then the marshaler, with the result type of the table's own
    row (int8, text, text): the tuple produced is the stored row, field
    for field. *)
Theorem Get_then_marshal_reproduces_the_row :
  forall (n : Z) (r : archiver_row) (st : backend),
    find (Pg.nodeid_is (int32 n)) (archiver_table (db st)) = Some r ->
    exists a : AutoFailoverArchiver,
      fst (GetArchiver Pg.executor n st) = Return (Some a) /\
      fst (AutoFailoverArchiverGetDatum (ResultComposite Pg.archiver_tupdesc)
             (Some a) (snd (GetArchiver Pg.executor n st))) =
        Return (DTuple (Pg.row_tuple r)).
Proof.
  intros n r st Hfind. exists (archiver_of_row r).
  rewrite GetArchiver_find, Hfind. cbn [fst snd option_map]. split; [reflexivity|].
  unfold Pg.archiver_tupdesc.
  rewrite GetDatum_compatible by (right; reflexivity).
  cbn [fst]. unfold archiver_of_row, Pg.row_tuple. cbn [nodeId nodeName nodeHost].
  apply find_some in Hfind. destruct Hfind as [_ E].
  unfold Pg.nodeid_is in E. apply Z.eqb_eq in E.
  rewrite E, (int32_small _ (int32_range n)). reflexivity.
Qed.

Lemma Get_then_marshal_reproduces_the_row_witness :
  exists a : AutoFailoverArchiver,
    fst (GetArchiver Pg.executor 3
           (idle (mkDatabase [mkRow 3 "archiver_3" "10.0.0.4:5432"] 3))) =
      Return (Some a) /\
    fst (AutoFailoverArchiverGetDatum (ResultComposite Pg.archiver_tupdesc)
           (Some a)
           (snd (GetArchiver Pg.executor 3
                   (idle (mkDatabase [mkRow 3 "archiver_3" "10.0.0.4:5432"] 3))))) =
      Return (DTuple (Pg.row_tuple (mkRow 3 "archiver_3" "10.0.0.4:5432"))).
Proof.
  apply (Get_then_marshal_reproduces_the_row 3
           (mkRow 3 "archiver_3" "10.0.0.4:5432")
           (idle (mkDatabase [mkRow 3 "archiver_3" "10.0.0.4:5432"] 3))).
  vm_compute. reflexivity.
Defined.

(** X12. Add does not look at the null flag of the returned column:
    against any executor whose insert reports a row with a NULL nodeid,
    Add returns 0 as if it were an identifier, and closes its session. *)
Theorem Add_returns_zero_for_a_null_nodeid :
  forall (ex : Executor) (nodeName : cstring) (host : string) (st : backend)
         (p : N) (desc : TupleDesc) (row : HeapTuple) (rows : list HeapTuple)
         (d' : database),
    insert_result ex nodeName host st =
      mkResult SPI_OK_INSERT_RETURNING p
        (Some (mkTupleTable desc ((VNull :: row) :: rows))) d' ->
    (0 < p)%N ->
    AddArchiver ex nodeName (Some host) st =
      (Return 0, mkBackend (spi_sessions st) 0%N None d').
Proof.
  intros ex nodeName host st p desc row rows d' H Hp.
  apply N.ltb_lt in Hp.
  unfold insert_result in H. unfold_spi.
  destruct nodeName as [name|]; rewrite H;
    cbn [res_status res_processed res_tuptable res_db];
    rewrite Hp; reflexivity.
Qed.

Lemma Add_returns_zero_for_a_null_nodeid_witness :
  AddArchiver null_returning_executor None (Some "10.0.0.5:5432")
    (idle empty_database) =
    (Return 0, idle empty_database).
Proof.
  apply (Add_returns_zero_for_a_null_nodeid null_returning_executor None
           "10.0.0.5:5432" (idle empty_database) 1%N [INT8OID] [] []
           empty_database).
  - reflexivity.
  - reflexivity.
Defined.

(** X13. Against any executor whose select reports SPI_OK_SELECT, Get
    tells presence from SPI_processed alone: it returns the absent value
    exactly when no row was processed, whatever the result set holds. *)
Theorem Get_decides_presence_on_SPI_processed :
  forall (ex : Executor) (n : Z) (st : backend),
    res_status (select_result ex n st) = SPI_OK_SELECT ->
    (fst (GetArchiver ex n st) = Return None <->
     res_processed (select_result ex n st) = 0%N).
Proof.
  intros ex n st Hok. split.
  - intros H.
    destruct (N.eq_dec (res_processed (select_result ex n st)) 0) as [E|E];
      [exact E | exfalso].
    assert (Hp : (0 <? res_processed (select_result ex n st))%N = true)
      by (apply N.ltb_lt; lia).
    unfold select_result in *. revert H. unfold_spi. destruct_result.
    rewrite Hok. cbn. rewrite Hp.
    split_match; discriminate.
  - intros H0. rewrite (GetArchiver_no_row ex n st Hok H0). reflexivity.
Qed.

Lemma Get_decides_presence_on_SPI_processed_witness :
  fst (GetArchiver uncounted_row_executor 7 (idle empty_database)) = Return None.
Proof.
  apply (proj2 (Get_decides_presence_on_SPI_processed uncounted_row_executor 7
                  (idle empty_database) eq_refl)).
  reflexivity.
Defined.

Lemma find_unique_row (k : Z) (rows : list archiver_row) (r : archiver_row) :
  NoDup (map row_nodeid rows) ->
  In r rows ->
  row_nodeid r = k ->
  find (Pg.nodeid_is k) rows = Some r.
Proof.
  intros Hdup Hin Hk. induction rows as [|x rows IH]; [destruct Hin|].
  cbn [map] in Hdup. inversion Hdup as [|? ? Hnotin Hrest]; subst.
  cbn [find]. unfold Pg.nodeid_is at 1.
  destruct Hin as [-> | Hin].
  - rewrite Z.eqb_refl. reflexivity.
  - destruct (Z.eqb_spec (row_nodeid x) (row_nodeid r)) as [E|_].
    + exfalso. apply Hnotin. rewrite E. apply in_map, Hin.
    + apply IH; [exact Hrest | exact Hin].
Qed.

(** X14. In a store where no two rows share a nodeid, Get finds every
    stored row by its nodeid, provided the nodeid fits a C int: the
    record returned carries that row's nodeid, name and host. *)
Theorem Get_finds_every_stored_row :
  forall (r : archiver_row) (st : backend),
    NoDup (map row_nodeid (archiver_table (db st))) ->
    In r (archiver_table (db st)) ->
    in_int32 (row_nodeid r) ->
    fst (GetArchiver Pg.executor (row_nodeid r) st) =
      Return (Some (mkArchiver (row_nodeid r) (row_nodename r) (row_nodehost r))).
Proof.
  intros r st Hdup Hin Hid.
  rewrite GetArchiver_find, (int32_small _ Hid).
  rewrite (find_unique_row (row_nodeid r) _ r Hdup Hin eq_refl).
  reflexivity.
Qed.

Lemma Get_finds_every_stored_row_witness :
  fst (GetArchiver Pg.executor 5
         (idle (mkDatabase [mkRow 3 "archiver_3" "10.0.0.4:5432";
                            mkRow 5 "backup1" "10.0.0.5:5432"] 5))) =
    Return (Some (mkArchiver 5 "backup1" "10.0.0.5:5432")).
Proof.
  apply (Get_finds_every_stored_row (mkRow 5 "backup1" "10.0.0.5:5432")
           (idle (mkDatabase [mkRow 3 "archiver_3" "10.0.0.4:5432";
                              mkRow 5 "backup1" "10.0.0.5:5432"] 5))).
  - simpl. repeat constructor.
    + intros [H | []]. discriminate H.
    + intros [].
  - simpl. right. left. reflexivity.
  - unfold in_int32. simpl. lia.
Defined.
